(** * builder.py: JSON values to tree items, and the schema model builder

    A shallow embedding of [app/modules/builder.py].  Python values are an
    inductive type, a call that may raise returns a [result], local
    variables that a loop binds are [option]s that are read through
    [read_local], and [or] short-circuits from left to right. *)

From Stdlib Require Import String Ascii List ZArith Bool Lia.
From Stdlib Require Import DecimalString.
Import ListNotations.
Open Scope list_scope.
Open Scope string_scope.
Set Warnings "-register-all".

(** ** Python values *)

(** The classes the module meets.  [TClass] is any other class, deriving
    directly from [object]: a custom object, a set, a function. *)
Inductive pytype : Type :=
| TStr | TInt | TFloat | TBool | TNoneType
| TList | TTuple | TDict
| TType | TObject
| TClass (name : string).

(** A float is carried by the text that [str] returns for it.  A dict is
    its items in insertion order.  [VType] is a class used as a value, as
    in the second argument of [isinstance]. *)
Inductive pyvalue : Type :=
| VStr (s : string)
| VInt (n : Z)
| VFloat (repr : string)
| VBool (b : bool)
| VNone
| VList (xs : list pyvalue)
| VTuple (xs : list pyvalue)
| VDict (kvs : list (pyvalue * pyvalue))
| VObj (cls : string)
| VType (t : pytype).

Definition pydict := list (pyvalue * pyvalue).

(** ** Exceptions *)

Inductive exn : Type :=
| TypeError
| UnboundLocalError
| AssertionError
| AttributeError
| KeyError
| ValueError.

(** The name of the exception's class. *)
Definition exn_name (e : exn) : string :=
  match e with
  | TypeError => "TypeError"
  | UnboundLocalError => "UnboundLocalError"
  | AssertionError => "AssertionError"
  | AttributeError => "AttributeError"
  | KeyError => "KeyError"
  | ValueError => "ValueError"
  end.

Inductive result (A : Type) : Type :=
| Ok (a : A)
| Err (e : exn).
Arguments Ok {A} a.
Arguments Err {A} e.

Definition bind {A B : Type} (m : result A) (f : A -> result B) : result B :=
  match m with
  | Ok a => f a
  | Err e => Err e
  end.

Notation "x <- m ;; k" := (bind m (fun x => k))
  (at level 61, m at next level, right associativity).
Notation "m ;;; k" := (bind m (fun _ => k))
  (at level 61, right associativity).

(** [raises r cls]: the call ended with an exception of the class [cls]. *)
Definition raises {A : Type} (r : result A) (cls : string) : Prop :=
  exists e, r = Err e /\ exn_name e = cls.

(** [a or b]: [b] counts only when [a] is false. *)
Definition por (a b : result bool) : result bool :=
  x <- a ;; if x then Ok true else b.

(** [assert c], the interpreter running without [-O]. *)
Definition assert (c : bool) : result unit :=
  if c then Ok tt else Err AssertionError.

(** Reading a local variable that no assignment has bound yet. *)
Definition read_local {A : Type} (x : option A) : result A :=
  match x with
  | Some a => Ok a
  | None => Err UnboundLocalError
  end.

(** ** Built-ins *)

Definition type_of (v : pyvalue) : pytype :=
  match v with
  | VStr _ => TStr
  | VInt _ => TInt
  | VFloat _ => TFloat
  | VBool _ => TBool
  | VNone => TNoneType
  | VList _ => TList
  | VTuple _ => TTuple
  | VDict _ => TDict
  | VObj c => TClass c
  | VType _ => TType
  end.

Definition pytype_eqb (a b : pytype) : bool :=
  match a, b with
  | TStr, TStr | TInt, TInt | TFloat, TFloat | TBool, TBool
  | TNoneType, TNoneType | TList, TList | TTuple, TTuple | TDict, TDict
  | TType, TType | TObject, TObject => true
  | TClass x, TClass y => String.eqb x y
  | _, _ => false
  end.

(** [bool] derives from [int]; every class derives from [object]. *)
Definition issubclass (t c : pytype) : bool :=
  pytype_eqb t c
  || match t, c with
     | TBool, TInt => true
     | _, TObject => true
     | _, _ => false
     end.

(** [isinstance(v, cls)]: [cls] is a class or a tuple of such; anything
    else, [None] included, is a TypeError once it is looked at. *)
Fixpoint classinfo_match (t : pytype) (cls : pyvalue) : result bool :=
  match cls with
  | VType c => Ok (issubclass t c)
  | VTuple cs =>
      (fix any (cs : list pyvalue) : result bool :=
         match cs with
         | [] => Ok false
         | c :: rest =>
             b <- classinfo_match t c ;;
             if b then Ok true else any rest
         end) cs
  | _ => Err TypeError
  end.

Definition isinstance (v cls : pyvalue) : result bool :=
  classinfo_match (type_of v) cls.

Definition str := VType TStr.
Definition int := VType TInt.
Definition float := VType TFloat.
Definition bool_ := VType TBool.
Definition list_ := VType TList.
Definition tuple := VType TTuple.
Definition dict := VType TDict.

Definition str_of_Z (n : Z) : string := NilZero.string_of_int (Z.to_int n).

Definition pytype_name (t : pytype) : string :=
  match t with
  | TStr => "str" | TInt => "int" | TFloat => "float" | TBool => "bool"
  | TNoneType => "NoneType" | TList => "list" | TTuple => "tuple"
  | TDict => "dict" | TType => "type" | TObject => "object"
  | TClass n => n
  end.

Definition join (sep : string) (parts : list string) : string :=
  String.concat sep parts.

(** The text of an int.  The interpreter (CPython 3.11, with
    [sys.get_int_max_str_digits()] at its default of 4300) refuses to
    print an int of more digits. *)
Definition int_max_str_digits : nat := 4300.

Definition digits (n : Z) : nat := String.length (str_of_Z (Z.abs n)).

Definition int_str (n : Z) : result string :=
  if Nat.ltb int_max_str_digits (digits n) then Err ValueError
  else Ok (str_of_Z n).

(** [repr(v)].  A string is quoted as it stands (the escapes that [repr]
    adds to quotes and control characters are left out) and an object
    prints without its address. *)
Fixpoint py_repr (v : pyvalue) : result string :=
  match v with
  | VStr s => Ok ("'" ++ s ++ "'")
  | VInt n => int_str n
  | VFloat r => Ok r
  | VBool true => Ok "True"
  | VBool false => Ok "False"
  | VNone => Ok "None"
  | VList xs =>
      parts <- (fix all (xs : list pyvalue) : result (list string) :=
                  match xs with
                  | [] => Ok []
                  | x :: rest =>
                      p <- py_repr x ;; ps <- all rest ;; Ok (p :: ps)
                  end) xs ;;
      Ok ("[" ++ join ", " parts ++ "]")
  | VTuple xs =>
      parts <- (fix all (xs : list pyvalue) : result (list string) :=
                  match xs with
                  | [] => Ok []
                  | x :: rest =>
                      p <- py_repr x ;; ps <- all rest ;; Ok (p :: ps)
                  end) xs ;;
      Ok (match parts with
          | [p] => "(" ++ p ++ ",)"
          | _ => "(" ++ join ", " parts ++ ")"
          end)
  | VDict kvs =>
      parts <- (fix all (kvs : list (pyvalue * pyvalue))
                  : result (list string) :=
                  match kvs with
                  | [] => Ok []
                  | (k, x) :: rest =>
                      p <- py_repr k ;; q <- py_repr x ;;
                      ps <- all rest ;; Ok ((p ++ ": " ++ q) :: ps)
                  end) kvs ;;
      Ok ("{" ++ join ", " parts ++ "}")
  | VObj c => Ok ("<" ++ c ++ " object>")
  | VType t => Ok ("<class '" ++ pytype_name t ++ "'>")
  end.

(** [str(v)]: a string is itself, everything else prints as its repr. *)
Definition py_str (v : pyvalue) : result string :=
  match v with
  | VStr s => Ok s
  | _ => py_repr v
  end.

(** The characters of a string, each a string of length one. *)
Fixpoint chars (s : string) : list pyvalue :=
  match s with
  | EmptyString => []
  | String c rest => VStr (String c EmptyString) :: chars rest
  end.

(** What a [for] loop over [v] goes through. *)
Definition iter_value (v : pyvalue) : result (list pyvalue) :=
  match v with
  | VStr s => Ok (chars s)
  | VList xs => Ok xs
  | VTuple xs => Ok xs
  | VDict kvs => Ok (map fst kvs)
  | _ => Err TypeError
  end.

(** [v.items()] *)
Definition items (v : pyvalue) : result pydict :=
  match v with
  | VDict kvs => Ok kvs
  | _ => Err AttributeError
  end.

(** [v == s] for a string [s]: only an equal string is equal to it. *)
Definition eq_str (v : pyvalue) (s : string) : bool :=
  match v with
  | VStr t => String.eqb t s
  | _ => false
  end.

(** A value added to a string: only a string is. *)
Definition as_str (v : pyvalue) : result string :=
  match v with
  | VStr s => Ok s
  | _ => Err TypeError
  end.

(** ** ItemObj

    The tree item, a [QTreeWidgetItem] of the toolkit with a [value_type]
    added: the text of each column that [setText] has set, the type that
    [set_value_type] stores and the children in the order [addChild]
    received them. *)
Inductive ItemObj : Type :=
| mkItem (texts : list (Z * string)) (value_type : option pytype)
    (children : list ItemObj).

Definition texts (i : ItemObj) : list (Z * string) :=
  match i with mkItem t _ _ => t end.
Definition get_value_type (i : ItemObj) : option pytype :=
  match i with mkItem _ ty _ => ty end.
Definition children (i : ItemObj) : list ItemObj :=
  match i with mkItem _ _ cs => cs end.

Definition ItemObj_new : ItemObj := mkItem [] None [].

(** [item.setText(...)].  The method of the toolkit is
    [setText(column, text)]: called with anything but an int and a
    string, and so with one argument, it raises TypeError. *)
Definition setText (args : list pyvalue) (i : ItemObj) : result ItemObj :=
  match args with
  | [VInt column; VStr s] =>
      Ok (mkItem ((column, s) :: texts i) (get_value_type i) (children i))
  | _ => Err TypeError
  end.

Definition set_value_type (val : pyvalue) (i : ItemObj) : ItemObj :=
  mkItem (texts i) (Some (type_of val)) (children i).
Definition addChild (c : ItemObj) (i : ItemObj) : ItemObj :=
  mkItem (texts i) (get_value_type i) (children i ++ [c])%list.

(** ** The classifiers *)

Definition check_simple_value (val : pyvalue) : result bool :=
  c <- por (isinstance val str)
         (por (isinstance val int)
            (por (isinstance val float)
               (por (isinstance val bool_)
                  (isinstance val VNone)))) ;;
  if c then Ok true else Ok false.

(** [val] is a local of the function, bound by the loop only, and the
    first line reads it. *)
Definition check_simple_list (values : pyvalue) : result bool :=
  let val : option pyvalue := None in
  c <- por (v <- read_local val ;; isinstance v list_)
         (v <- read_local val ;; isinstance v tuple) ;;
  if c then
    vs <- iter_value values ;;
    (fix loop (vs : list pyvalue) : result bool :=
       match vs with
       | [] => Ok true
       | val :: rest =>
           b <- check_simple_value val ;;
           if negb b then Ok false else loop rest
       end) vs
  else Ok false.

Definition check_simple_dict (dictval : pyvalue) : result bool :=
  c <- isinstance dictval dict ;;
  if c then
    kvs <- items dictval ;;
    (fix loop (kvs : pydict) : result bool :=
       match kvs with
       | [] => Ok true
       | (key, val) :: rest =>
           b <- por (l <- check_simple_list val ;; Ok (negb l))
                  (s <- check_simple_value val ;; Ok (negb s)) ;;
           if b then Ok false else loop rest
       end) kvs
  else Ok false.

Definition check_simple_element (value : pyvalue) : result bool :=
  por (check_simple_value value)
    (por (check_simple_list value) (check_simple_dict value)).

(** ** The transformations of simple elements *)

Definition transform_val_to_tree_item (val : pyvalue) : result ItemObj :=
  c <- check_simple_value val ;;
  assert c ;;;
  let item := ItemObj_new in
  s <- py_str val ;;
  item <- setText [VStr s] item ;;
  let item := set_value_type val item in
  Ok item.

Definition transform_simple_val_to_tree_item (name val : pyvalue)
  : result ItemObj :=
  c <- isinstance name str ;;
  assert c ;;;
  c <- check_simple_value val ;;
  assert c ;;;
  item <- transform_val_to_tree_item name ;;
  vitem <- transform_val_to_tree_item val ;;
  let item := addChild vitem item in
  Ok item.

Definition transform_simple_list_to_tree_item (val name : pyvalue)
  : result ItemObj :=
  c <- check_simple_list val ;;
  assert c ;;;
  c <- isinstance name str ;;
  assert c ;;;
  let item := ItemObj_new in
  item <- setText [name] item ;;
  let item := set_value_type val item in
  vs <- iter_value val ;;
  (fix loop (vs : list pyvalue) (item : ItemObj) : result ItemObj :=
     match vs with
     | [] => Ok item
     | v :: rest =>
         vitem <- transform_val_to_tree_item v ;;
         loop rest (addChild vitem item)
     end) vs item.

(** [vitem] is a local that only the two branches of the loop bind: an
    item that takes neither branch adds what the previous one left. *)
Definition transform_simple_dict_to_tree_item (val name : pyvalue)
  : result ItemObj :=
  c <- isinstance name str ;;
  assert c ;;;
  c <- check_simple_dict val ;;
  assert c ;;;
  let item := ItemObj_new in
  let item := set_value_type val item in
  item <- setText [name] item ;;
  kvs <- items val ;;
  (fix loop (kvs : pydict) (item : ItemObj) (vitem : option ItemObj)
     : result ItemObj :=
     match kvs with
     | [] => Ok item
     | (key, vs) :: rest =>
         c <- check_simple_value vs ;;
         vitem <-
           (if c then
              i <- transform_simple_val_to_tree_item key vs ;; Ok (Some i)
            else
              c <- check_simple_list vs ;;
              if c then
                i <- transform_simple_list_to_tree_item key vs ;; Ok (Some i)
              else Ok vitem) ;;
         child <- read_local vitem ;;
         loop rest (addChild child item) vitem
     end) kvs item None.

(** The calls hand [name] and [value] over by position, as the source
    does, also where the callee takes the value first. *)
Definition transform_simple_element_to_tree_item (name value : pyvalue)
  : result ItemObj :=
  c <- isinstance name str ;;
  assert c ;;;
  c <- check_simple_element value ;;
  assert c ;;;
  c <- check_simple_value value ;;
  if c then transform_simple_val_to_tree_item name value
  else
    c <- check_simple_list value ;;
    if c then transform_simple_list_to_tree_item name value
    else
      c <- check_simple_dict value ;;
      if c then transform_simple_dict_to_tree_item name value
      else Err ValueError.

(** ** The transformation of any element *)

(** A recursive call: [None] when the levels of recursion granted ran
    out before the call returned or raised. *)
Definition call := pyvalue -> pyvalue -> option (result ItemObj).

(** The function past its first test.  [val] is a local that only the
    loop over a dict binds, so on the other branch it is read unbound. *)
Definition complex_element (self : call) (name value : pyvalue)
  : option (result ItemObj) :=
  let val : option pyvalue := None in
  let item := ItemObj_new in
  match setText [name] item with
  | Err e => Some (Err e)
  | Ok item =>
      let item := set_value_type value item in
      match isinstance value dict with
      | Err e => Some (Err e)
      | Ok true =>
          match items value with
          | Err e => Some (Err e)
          | Ok kvs =>
              (fix loop (kvs : pydict) (item : ItemObj)
                 : option (result ItemObj) :=
                 match kvs with
                 | [] => Some (Ok item)
                 | (key, val) :: rest =>
                     match self key val with
                     | None => None
                     | Some (Err e) => Some (Err e)
                     | Some (Ok child) => loop rest (addChild child item)
                     end
                 end) kvs item
          end
      | Ok false =>
          match por (isinstance value list_) (isinstance value tuple) with
          | Err e => Some (Err e)
          | Ok true =>
              match read_local val with
              | Err e => Some (Err e)
              | Ok v =>
                  match self name v with
                  | None => None
                  | Some (Err e) => Some (Err e)
                  | Some (Ok child) => Some (Ok (addChild child item))
                  end
              end
          | Ok false => Some (Ok item)
          end
      end
  end.

(** [fuel] is the number of nested calls granted. *)
Fixpoint transform_complex_element_to_tree_item
  (fuel : nat) (name value : pyvalue) : option (result ItemObj) :=
  match fuel with
  | O => None
  | S fuel =>
      match check_simple_element value with
      | Err e => Some (Err e)
      | Ok true => Some (transform_simple_element_to_tree_item name value)
      | Ok false =>
          complex_element (transform_complex_element_to_tree_item fuel)
            name value
      end
  end.

(** Nesting of lists, tuples and dicts below a value. *)
Fixpoint depth (v : pyvalue) : nat :=
  match v with
  | VList xs | VTuple xs => S (fold_right (fun x d => Nat.max (depth x) d) O xs)
  | VDict kvs => S (fold_right (fun kv d => Nat.max (depth (snd kv)) d) O kvs)
  | _ => O
  end.

(** ** The schema *)

(** [key in schema] *)
Definition has_key (k : string) (schema : pydict) : bool :=
  existsb (fun kv => eq_str (fst kv) k) schema.

(** [schema[key]] *)
Fixpoint getitem (schema : pydict) (k : string) : result pyvalue :=
  match schema with
  | [] => Err KeyError
  | (k', v) :: rest => if eq_str k' k then Ok v else getitem rest k
  end.

(** ["..." + v] and [v + "..."]: only a string adds to a string. *)
Definition str_add (s : string) (v : pyvalue) : result string :=
  t <- as_str v ;; Ok (s ++ t).
Definition add_str (v : pyvalue) (s : string) : result string :=
  t <- as_str v ;; Ok (t ++ s).

(** The message of an exception is built and then dropped: only what
    building it may raise is kept. *)
Definition check_schema (schema : pydict) : result unit :=
  if negb (has_key "type" schema) then Err ValueError
  else
    model_name <- getitem schema "type" ;;
    (if negb (eq_str model_name "Entry")
        && negb (eq_str model_name "Dictionary")
     then
       mess <- str_add "Specified schema type: " model_name ;;
       Err ValueError
     else Ok tt) ;;;
    if negb (has_key "name" schema) then Err ValueError
    else Ok tt.

Definition allowed : string :=
  "wxcvbnqsdfghjklmazertyuiopWXCVBNQSDFGHJKLMAZERTYUIOP0123456789".

(** [c in l] for a list [l] of strings *)
Definition in_list (c : pyvalue) (l : list string) : bool :=
  existsb (eq_str c) l.

(** [all([c in [allowed] for c in k])] *)
Definition key_name_ok (k : pyvalue) : result bool :=
  cs <- iter_value k ;;
  Ok (forallb (fun c => in_list c [allowed]) cs).

(** The class that [namedtuple] returns, by its name and its fields. *)
Inductive model : Type :=
| namedtuple (typename : string) (field_names : list pyvalue).

(** The loop of [model_builder] over the keys, from [bad_keys] so far. *)
Fixpoint collect_bad_keys (keys bad_keys : list pyvalue)
  : result (list pyvalue) :=
  match keys with
  | [] => Ok bad_keys
  | k :: rest =>
      ok <- key_name_ok k ;;
      if negb ok then collect_bad_keys rest (bad_keys ++ [k])%list
      else collect_bad_keys rest bad_keys
  end.

Definition model_builder (schema : pydict) : result model :=
  check_schema schema ;;;
  model_name <- getitem schema "type" ;;
  tail <- add_str model_name "Model" ;;
  model_name <- add_str model_name tail ;;
  let keys := map fst schema in
  bad_keys <- collect_bad_keys keys [] ;;
  match bad_keys with
  | _ :: _ => Err ValueError
  | [] => Ok (namedtuple model_name keys)
  end.

(** A dict as the JSON decoder builds it: every key is a string. *)
Definition json_object (members : list (string * pyvalue)) : pydict :=
  map (fun m => (VStr (fst m), snd m)) members.

(** [buildTree(name, value)] ends with an exception of the class [cls]. *)
Definition fails_with (name value : pyvalue) (cls : string) : Prop :=
  exists fuel r,
    transform_complex_element_to_tree_item fuel name value = Some r
    /\ raises r cls.

(** The values that are a str, an int, a float or a bool. *)
Definition is_scalar (v : pyvalue) : bool :=
  match v with
  | VStr _ | VInt _ | VFloat _ | VBool _ => true
  | _ => false
  end.

(** A dict nested [n] times around the integer 1. *)
Fixpoint nested (n : nat) : pyvalue :=
  match n with
  | O => VInt 1
  | S n => VDict [(VStr "a", nested n)]
  end.

(** The values that a [for] loop can go through. *)
Definition is_iterable (v : pyvalue) : bool :=
  match v with
  | VStr _ | VList _ | VTuple _ | VDict _ => true
  | _ => false
  end.

(** * What the classifiers return *)

Section Classifiers.

Lemma check_simple_value_eq (v : pyvalue) :
  check_simple_value v = if is_scalar v then Ok true else Err TypeError.
Proof. destruct v; reflexivity. Qed.

(** The first line reads [val] before the loop has bound it. *)
Lemma check_simple_list_eq (v : pyvalue) :
  check_simple_list v = Err UnboundLocalError.
Proof. reflexivity. Qed.

Lemma check_simple_dict_eq (v : pyvalue) :
  check_simple_dict v =
    match v with
    | VDict [] => Ok true
    | VDict (_ :: _) => Err UnboundLocalError
    | _ => Ok false
    end.
Proof.
  destruct v as [ | | | | | | | kvs | | ]; try reflexivity.
  destruct kvs as [ | [key val] rest]; reflexivity.
Qed.

Lemma check_simple_element_eq (v : pyvalue) :
  check_simple_element v = if is_scalar v then Ok true else Err TypeError.
Proof.
  unfold check_simple_element. rewrite check_simple_value_eq.
  destruct (is_scalar v); reflexivity.
Qed.

End Classifiers.

(** * What the transformations return *)

Section Transformations.

(** [setText] with one argument raises, whatever the argument. *)
Lemma setText_one (v : pyvalue) (i : ItemObj) :
  setText [v] i = Err TypeError.
Proof. destruct v; reflexivity. Qed.

Lemma transform_simple_val_eq (name val : pyvalue) :
  transform_simple_val_to_tree_item name val =
    match name with
    | VStr _ => Err TypeError
    | _ => Err AssertionError
    end.
Proof. destruct name; destruct val; reflexivity. Qed.

Lemma transform_simple_element_eq (name value : pyvalue) :
  transform_simple_element_to_tree_item name value =
    match name with
    | VStr _ => Err TypeError
    | _ => Err AssertionError
    end.
Proof. destruct name; destruct value; reflexivity. Qed.

(** One level of calls is all that is ever used: the first test of the
    function returns true or raises. *)
Lemma transform_complex_element_eq (fuel : nat) (name value : pyvalue) :
  transform_complex_element_to_tree_item (S fuel) name value =
    Some (Err (if is_scalar value
               then match name with
                    | VStr _ => TypeError
                    | _ => AssertionError
                    end
               else TypeError)).
Proof.
  simpl. rewrite check_simple_element_eq.
  destruct (is_scalar value) eqn:Hs; [ | reflexivity].
  rewrite transform_simple_element_eq. now destruct name.
Qed.

Lemma transform_complex_element_exn
  (fuel : nat) (name value : pyvalue) (e : exn) :
  transform_complex_element_to_tree_item fuel name value = Some (Err e) ->
  e = TypeError \/ e = AssertionError.
Proof.
  destruct fuel as [ | fuel]; [discriminate | ].
  rewrite transform_complex_element_eq.
  destruct (is_scalar value); [destruct name | ];
    intros H; inversion H; auto.
Qed.

Lemma not_fails_with (name value : pyvalue) (cls : string) :
  cls <> "TypeError" -> cls <> "AssertionError" ->
  ~ fails_with name value cls.
Proof.
  intros Ht Ha (fuel & r & Hr & e & -> & Hn).
  destruct (transform_complex_element_exn _ _ _ _ Hr); subst e;
    simpl in Hn; congruence.
Qed.

Lemma depth_nested (n : nat) : depth (nested n) = n.
Proof.
  induction n as [ | n IH]; [reflexivity | ].
  simpl. rewrite IH. now rewrite Nat.max_0_r.
Qed.

End Transformations.

(** * The schema *)

Section Schema.

Lemma char_not_allowed (c : ascii) :
  in_list (VStr (String c EmptyString)) [allowed] = false.
Proof.
  unfold in_list, allowed. simpl.
  destruct (Ascii.eqb c "w"); reflexivity.
Qed.

Lemma key_name_ok_str (k : string) :
  key_name_ok (VStr k) =
    Ok (match k with EmptyString => true | String _ _ => false end).
Proof.
  destruct k as [ | c k]; [reflexivity | ].
  unfold key_name_ok, iter_value, bind.
  cbn [chars forallb]. now rewrite char_not_allowed.
Qed.

Lemma has_key_In (k : string) (schema : pydict) :
  has_key k schema = true -> In (VStr k) (map fst schema).
Proof.
  unfold has_key. intros H.
  apply existsb_exists in H. destruct H as ([key v] & Hin & Heq).
  simpl in Heq. destruct key; try discriminate Heq.
  apply String.eqb_eq in Heq. subst.
  apply in_map_iff. exists (VStr k, v). auto.
Qed.

(** What a schema that passes [check_schema] holds. *)
Lemma check_schema_Ok (schema : pydict) :
  check_schema schema = Ok tt ->
  has_key "type" schema = true
  /\ (getitem schema "type" = Ok (VStr "Entry")
      \/ getitem schema "type" = Ok (VStr "Dictionary"))
  /\ has_key "name" schema = true.
Proof.
  unfold check_schema.
  destruct (has_key "type" schema); [ | discriminate]. simpl negb. cbv iota.
  destruct (getitem schema "type") as [m | e]; [ | discriminate].
  simpl bind.
  destruct (eq_str m "Entry") eqn:He.
  - destruct m; try discriminate He. apply String.eqb_eq in He. subst.
    simpl. destruct (has_key "name" schema); [auto | discriminate].
  - destruct (eq_str m "Dictionary") eqn:Hd.
    + destruct m; try discriminate Hd. apply String.eqb_eq in Hd. subst.
      simpl. destruct (has_key "name" schema); [auto | discriminate].
    + simpl. destruct (str_add _ m); discriminate.
Qed.

Lemma getitem_has_key (k : string) (schema : pydict) :
  has_key k schema = true <-> exists m, getitem schema k = Ok m.
Proof.
  unfold has_key. induction schema as [ | [k' v] rest IH]; simpl.
  - split; [discriminate | intros (m & H); discriminate].
  - destruct (eq_str k' k); simpl; [ | exact IH].
    split; eauto.
Qed.

Lemma getitem_no_key (k : string) (schema : pydict) :
  has_key k schema = false -> getitem schema k = Err KeyError.
Proof.
  unfold has_key. induction schema as [ | [k' v] rest IH]; simpl; [reflexivity | ].
  destruct (eq_str k' k); simpl; [discriminate | exact IH].
Qed.

Lemma check_schema_cases (schema : pydict) :
  check_schema schema =
    match getitem schema "type" with
    | Err _ => Err ValueError
    | Ok (VStr t) =>
        if (String.eqb t "Entry" || String.eqb t "Dictionary")%bool
        then if has_key "name" schema then Ok tt else Err ValueError
        else Err ValueError
    | Ok _ => Err TypeError
    end.
Proof.
  unfold check_schema.
  destruct (has_key "type" schema) eqn:Ht.
  - apply getitem_has_key in Ht. destruct Ht as (m & ->). simpl.
    destruct m; try reflexivity.
    simpl. destruct (String.eqb s "Entry"); simpl.
    + destruct (has_key "name" schema); reflexivity.
    + destruct (String.eqb s "Dictionary"); simpl; [ | reflexivity].
      destruct (has_key "name" schema); reflexivity.
  - now rewrite (getitem_no_key _ _ Ht).
Qed.

Lemma check_schema_errors_aux (schema : pydict) (e : exn) :
  check_schema schema = Err e -> e = ValueError \/ e = TypeError.
Proof.
  rewrite check_schema_cases.
  destruct (getitem schema "type") as [m | e']; [ | intros H; inversion H; auto].
  destruct m; try (intros H; inversion H; now auto).
  destruct (String.eqb s "Entry" || String.eqb s "Dictionary")%bool;
    [destruct (has_key "name" schema) | ]; intros H; inversion H; auto.
Qed.

Lemma key_name_ok_cases (k : pyvalue) :
  (exists b, key_name_ok k = Ok b) \/ key_name_ok k = Err TypeError.
Proof.
  unfold key_name_ok. destruct k; simpl; eauto.
Qed.

(** The loop over the keys stops at the first key it cannot go through,
    and a bad key, once recorded, stays. *)
Lemma collect_bad_keys_cases (keys : list pyvalue) :
  forall bad_keys,
    (collect_bad_keys keys bad_keys = Err TypeError
     /\ exists k, In k keys /\ is_iterable k = false)
    \/ (exists bad,
          collect_bad_keys keys bad_keys = Ok bad
          /\ Forall (fun k => is_iterable k = true) keys
          /\ (bad_keys <> [] -> bad <> [])
          /\ (forall s, s <> "" -> In (VStr s) keys -> bad <> [])).
Proof.
  induction keys as [ | k keys IH]; intros bad_keys.
  - right. exists bad_keys; repeat split; auto; intros s _ [].
  - cbn [collect_bad_keys].
    destruct (is_iterable k) eqn:Hk.
    + assert (Hok : exists b, key_name_ok k = Ok b
                      /\ (forall s, s <> "" -> k = VStr s -> b = false)).
      { destruct k; try discriminate Hk.
        - rewrite key_name_ok_str. eexists. split; [reflexivity | ].
          intros t Ht Heq. inversion Heq; subst.
          destruct t; [congruence | reflexivity].
        - unfold key_name_ok; simpl; eexists;
            (split; [reflexivity | intros; discriminate]).
        - unfold key_name_ok; simpl; eexists;
            (split; [reflexivity | intros; discriminate]).
        - unfold key_name_ok; simpl; eexists;
            (split; [reflexivity | intros; discriminate]). }
      destruct Hok as (b & -> & Hb). cbn [bind].
      destruct b; cbn [negb].
      * destruct (IH bad_keys) as [(He & k' & Hin & Hk') | (bad & Hc & Hall & Hacc & Hin)].
        -- left. split; [exact He | ]. exists k'. split; [now right | exact Hk'].
        -- right. exists bad. repeat split; auto.
           intros s Hs [Heq | Hi]; [ | eauto].
           specialize (Hb s Hs Heq). discriminate Hb.
      * destruct (IH (bad_keys ++ [k])%list)
          as [(He & k' & Hin & Hk') | (bad & Hc & Hall & Hacc & Hin)].
        -- left. split; [exact He | ]. exists k'. split; [now right | exact Hk'].
        -- right. exists bad. repeat split; auto.
           ++ intros _. apply Hacc. now destruct bad_keys.
           ++ intros _ _ _. apply Hacc. now destruct bad_keys.
    + left. split.
      * destruct k; try discriminate Hk; reflexivity.
      * exists k. split; [now left | exact Hk].
Qed.

(** Once the schema is accepted, only the loop over the keys decides. *)
Lemma model_builder_accepted (schema : pydict) :
  check_schema schema = Ok tt ->
  exists model_name,
    model_builder schema =
      (bad_keys <- collect_bad_keys (map fst schema) [] ;;
       match bad_keys with
       | _ :: _ => Err ValueError
       | [] => Ok (namedtuple model_name (map fst schema))
       end).
Proof.
  intros Hc. destruct (check_schema_Ok _ Hc) as (_ & Hg & _).
  unfold model_builder. rewrite Hc. cbn [bind].
  destruct Hg as [-> | ->]; simpl bind; eauto.
Qed.

End Schema.

(** * The claims *)

Module Claims.

(** ** The classifier *)

(** C1.  The classifier is meant to be total, answering false (the
    complex kind) when no simple predicate holds.  The code does not do
    that: [check_simple_element] raises TypeError on None, on a dict, a
    list, a tuple and any other object, and on no value at all does it
    answer false. *)
Theorem check_simple_element_raises :
  check_simple_element VNone = Err TypeError
  /\ check_simple_element (VDict []) = Err TypeError
  /\ check_simple_element (VList []) = Err TypeError
  /\ check_simple_element (VTuple []) = Err TypeError
  /\ check_simple_element (VObj "SomeCustomObject") = Err TypeError
  /\ forall v : pyvalue,
      check_simple_element v = if is_scalar v then Ok true else Err TypeError.
Proof.
  repeat split. apply check_simple_element_eq.
Qed.

(** C2.  The simple-value predicate is meant to hold of a str, an int,
    a float, a bool and None.  The code answers true for the first four
    and raises TypeError on None: its last test is
    [isinstance(val, None)]. *)
Theorem check_simple_value_None :
  (forall s, check_simple_value (VStr s) = Ok true)
  /\ (forall n, check_simple_value (VInt n) = Ok true)
  /\ (forall r, check_simple_value (VFloat r) = Ok true)
  /\ (forall b, check_simple_value (VBool b) = Ok true)
  /\ check_simple_value VNone = Err TypeError.
Proof. repeat split. Qed.

(** C4.  The simple-list predicate is meant to hold exactly of the
    lists and tuples of simple values.  The code raises
    UnboundLocalError on every argument, the empty list and [1, 2, 3]
    included: it tests [val], the variable of its loop, where it means
    [values]. *)
Theorem check_simple_list_raises :
  check_simple_list (VList []) = Err UnboundLocalError
  /\ check_simple_list (VList [VInt 1; VInt 2; VInt 3]) = Err UnboundLocalError
  /\ forall v : pyvalue, check_simple_list v = Err UnboundLocalError.
Proof. repeat split. Qed.

(** C5.  The simple-dict predicate is meant to hold exactly of the
    dicts whose values are each a simple value or a simple list.  The
    code raises UnboundLocalError on [{"a": 1}] and on every dict that
    is not empty. *)
Theorem check_simple_dict_raises :
  check_simple_dict (VDict [(VStr "a", VInt 1)]) = Err UnboundLocalError
  /\ (forall key val rest,
        check_simple_dict (VDict ((key, val) :: rest)) = Err UnboundLocalError)
  /\ check_simple_dict (VDict []) = Ok true
  /\ check_simple_dict (VInt 1) = Ok false.
Proof. repeat split. Qed.

(** ** The tree *)

(** C3.  A list of complex elements is meant to give an item with one
    child per element, in order.  The code raises TypeError on
    [buildTree("n", [{"a": 1}, {"a": 2}])], in its first test, and builds
    no child at all. *)
Theorem buildTree_list_of_dicts :
  forall fuel,
    transform_complex_element_to_tree_item (S fuel) (VStr "n")
      (VList [VDict [(VStr "a", VInt 1)]; VDict [(VStr "a", VInt 2)]])
    = Some (Err TypeError).
Proof. reflexivity. Qed.

(** [buildTree("x", 5)] raises too: the name passes the asserts and its
    item is then given its text by [setText] without a column. *)
Example buildTree_x_5 :
  transform_complex_element_to_tree_item 1 (VStr "x") (VInt 5)
  = Some (Err TypeError).
Proof. reflexivity. Qed.

(** C6.  A simple value under a string label is meant to give the item
    of the label with one child, the leaf of [str(value)], and None is a
    simple value.  The code raises TypeError for [buildTree("x", None)],
    in [check_simple_value], and so does the transformation of a named
    simple value when called on its own. *)
Theorem buildTree_simple_value_None :
  (forall fuel,
      transform_complex_element_to_tree_item (S fuel) (VStr "x") VNone
      = Some (Err TypeError))
  /\ transform_simple_val_to_tree_item (VStr "x") VNone = Err TypeError.
Proof. split; reflexivity. Qed.

(** C7.  A list of simple values is meant to give the item of the
    label with one leaf per element, in order.  The code raises
    TypeError for [buildTree("xs", [1, 2, 3])], and the transformation
    of simple lists raises UnboundLocalError on every argument. *)
Theorem buildTree_simple_list_raises :
  (forall fuel,
      transform_complex_element_to_tree_item (S fuel) (VStr "xs")
        (VList [VInt 1; VInt 2; VInt 3])
      = Some (Err TypeError))
  /\ (forall val name,
        transform_simple_list_to_tree_item val name = Err UnboundLocalError).
Proof. split; reflexivity. Qed.

(** ** Failures *)

(** C8, as the spec has it, fails: a custom object does not end
    [buildTree] with an UnsupportedValueError, and a label that is not a
    string does not end it with an InvalidLabelError. *)
Lemma buildTree_no_named_errors :
  ~ fails_with (VStr "x") (VObj "SomeCustomObject") "UnsupportedValueError"
  /\ transform_complex_element_to_tree_item 1
       (VStr "x") (VObj "SomeCustomObject")
     = Some (Err TypeError)
  /\ ~ fails_with (VInt 1) (VInt 5) "InvalidLabelError"
  /\ transform_complex_element_to_tree_item 1 (VInt 1) (VInt 5)
     = Some (Err AssertionError).
Proof.
  repeat split; try (apply not_fails_with; discriminate).
Qed.

(** C8, amended.  [buildTree] raises neither UnsupportedValueError nor
    InvalidLabelError; a call that raises returns no item; and a label
    that is not a string, with a value that is a str, an int, a float
    or a bool, ends the call with AssertionError. *)
Theorem buildTree_failures (fuel : nat) (name value : pyvalue) :
  (forall e,
      transform_complex_element_to_tree_item fuel name value = Some (Err e) ->
      exn_name e <> "UnsupportedValueError"
      /\ exn_name e <> "InvalidLabelError"
      /\ forall item,
          transform_complex_element_to_tree_item fuel name value
          <> Some (Ok item))
  /\ (is_scalar value = true ->
      isinstance name str = Ok false ->
      transform_complex_element_to_tree_item (S fuel) name value
      = Some (Err AssertionError)).
Proof.
  split.
  - intros e He. repeat split.
    + destruct (transform_complex_element_exn _ _ _ _ He); subst; discriminate.
    + destruct (transform_complex_element_exn _ _ _ _ He); subst; discriminate.
    + intros item Hi. congruence.
  - intros Hs Hn. rewrite transform_complex_element_eq, Hs.
    destruct name; try reflexivity. discriminate Hn.
Qed.

Lemma buildTree_failures_witness :
  transform_complex_element_to_tree_item 1 (VInt 1) (VInt 5)
  = Some (Err AssertionError)
  /\ exn_name AssertionError <> "UnsupportedValueError".
Proof.
  split.
  - apply (proj2 (buildTree_failures 0 (VInt 1) (VInt 5))); reflexivity.
  - apply (proj1 (buildTree_failures 1 (VInt 1) (VInt 5)) AssertionError).
    reflexivity.
Defined.

(** C9, as the spec has it, fails: with the limit of 1000 that the spec
    suggests, a value nested 1001 deep does not end [buildTree] with a
    DepthExceededError. *)
Lemma buildTree_no_depth_guard :
  1000 < depth (nested 1001)
  /\ ~ fails_with (VStr "n") (nested 1001) "DepthExceededError".
Proof.
  split.
  - rewrite depth_nested. lia.
  - apply not_fails_with; discriminate.
Qed.

(** C9, amended.  [buildTree] has no depth limit and no
    DepthExceededError: given more nested calls than the value is deep,
    it ends, with an item or with an exception of another class. *)
Theorem buildTree_ends (fuel : nat) (name value : pyvalue) :
  depth value < fuel ->
  exists r,
    transform_complex_element_to_tree_item fuel name value = Some r
    /\ ~ raises r "DepthExceededError".
Proof.
  intros Hd. destruct fuel as [ | fuel]; [lia | ].
  rewrite transform_complex_element_eq. eexists. split; [reflexivity | ].
  intros (e & He & Hn).
  destruct (is_scalar value); [destruct name | ];
    inversion He; subst; discriminate.
Qed.

Lemma buildTree_ends_witness :
  exists r,
    transform_complex_element_to_tree_item 3 (VStr "n") (nested 2) = Some r
    /\ ~ raises r "DepthExceededError".
Proof.
  apply (buildTree_ends 3 (VStr "n") (nested 2)). simpl. lia.
Defined.

(** ** The schema *)

(** C10, as the claim has it, fails: a schema may pass [check_schema]
    and end [model_builder] with TypeError, not ValueError, when one of
    its keys is not a string. *)
Lemma model_builder_int_key :
  check_schema
    [(VStr "type", VStr "Entry"); (VStr "name", VStr "n"); (VInt 5, VNone)]
  = Ok tt
  /\ model_builder
       [(VStr "type", VStr "Entry"); (VStr "name", VStr "n"); (VInt 5, VNone)]
     = Err TypeError
  /\ ~ raises
        (model_builder
           [(VStr "type", VStr "Entry"); (VStr "name", VStr "n");
            (VInt 5, VNone)])
        "ValueError".
Proof.
  repeat split. intros (e & He & Hn).
  inversion He; subst. discriminate Hn.
Qed.

(** C10, amended.  For every schema that passes [check_schema] and
    whose keys can all be looped over (strings, as the JSON decoder gives
    them), [model_builder] raises ValueError and returns no namedtuple: a
    character of a key is looked up in a list whose one element is the
    whole allow-list, so every key name that is not empty is bad, and
    ["type"] is among the keys. *)
Theorem model_builder_raises (schema : pydict) :
  check_schema schema = Ok tt ->
  Forall (fun k => is_iterable k = true) (map fst schema) ->
  model_builder schema = Err ValueError
  /\ (forall m, model_builder schema <> Ok m)
  /\ forall c k, key_name_ok (VStr (String c k)) = Ok false.
Proof.
  intros Hc Hkeys.
  assert (H : model_builder schema = Err ValueError).
  { destruct (model_builder_accepted _ Hc) as (model_name & ->).
    destruct (check_schema_Ok _ Hc) as (Ht & _).
    apply has_key_In in Ht.
    destruct (collect_bad_keys_cases (map fst schema) [])
      as [(_ & k & Hin & Hk) | (bad & -> & _ & _ & Hbad)].
    - rewrite Forall_forall in Hkeys.
      rewrite (Hkeys k Hin) in Hk. discriminate Hk.
    - assert (Hne : bad <> [])
        by (apply (Hbad "type"); [discriminate | exact Ht]).
      now destruct bad. }
  repeat split; [exact H | congruence | ].
  intros c k. apply key_name_ok_str.
Qed.

Lemma model_builder_raises_witness :
  model_builder
    (json_object [("type", VStr "Entry"); ("name", VStr "lexicon")])
  = Err ValueError.
Proof.
  apply (model_builder_raises
           (json_object [("type", VStr "Entry"); ("name", VStr "lexicon")])).
  - reflexivity.
  - repeat constructor.
Defined.

End Claims.

(** * Further properties of the module *)

Module Properties.

(** ** The transformations of simple elements *)

(** X1.  [transform_val_to_tree_item] returns an item for no value.  It
    raises TypeError: for a value that is not a str, an int, a float or a
    bool in [check_simple_value], and otherwise in [setText], called
    without a column.  Only for an int of more digits than the interpreter
    prints does [str(val)] raise ValueError before [setText] is reached. *)
Theorem transform_val_to_tree_item_raises (val : pyvalue) :
  transform_val_to_tree_item val =
    match val with
    | VInt n =>
        if Nat.ltb int_max_str_digits (digits n)
        then Err ValueError
        else Err TypeError
    | _ => Err TypeError
    end.
Proof.
  destruct val as [ | n | | b | | | | | | ]; try reflexivity.
  - unfold transform_val_to_tree_item.
    change (check_simple_value (VInt n)) with (@Ok bool true).
    cbn [bind assert]. unfold py_str, py_repr, int_str.
    destruct (Nat.ltb int_max_str_digits (digits n)); reflexivity.
  - destruct b; reflexivity.
Qed.

(** X2.  [transform_simple_val_to_tree_item] returns an item for no
    name and value.  It checks the name first: a name that is not a
    string ends it with AssertionError whatever the value is; under a
    string name it raises TypeError, for a value that is not a str, an
    int, a float or a bool in [check_simple_value], and otherwise while
    it builds the item of the name. *)
Theorem transform_simple_val_to_tree_item_cases (name val : pyvalue) :
  transform_simple_val_to_tree_item name val =
    match name with
    | VStr _ => Err TypeError
    | _ => Err AssertionError
    end.
Proof. apply transform_simple_val_eq. Qed.

(** X3.  [transform_simple_dict_to_tree_item] returns an item for no
    argument: under a string name the empty dict raises TypeError (in
    [setText]) and a dict that is not empty raises UnboundLocalError (in
    [check_simple_dict]); a value that is not a dict, or a name that is
    not a string, fails an assert. *)
Theorem transform_simple_dict_to_tree_item_cases (val name : pyvalue) :
  transform_simple_dict_to_tree_item val name =
    match name, val with
    | VStr _, VDict [] => Err TypeError
    | VStr _, VDict (_ :: _) => Err UnboundLocalError
    | _, _ => Err AssertionError
    end.
Proof.
  destruct val as [ | | | | | | | items | | ]; destruct name;
    try reflexivity; destruct items as [ | [k v] rest]; reflexivity.
Qed.

(** X4.  [transform_simple_element_to_tree_item] is
    [transform_simple_val_to_tree_item] on every name and value: its
    branches for lists and for dicts are never taken, and it never raises
    the ValueError of its last branch. *)
Theorem transform_simple_element_is_simple_val (name value : pyvalue) :
  transform_simple_element_to_tree_item name value
  = transform_simple_val_to_tree_item name value.
Proof. destruct name; destruct value; reflexivity. Qed.

(** ** The transformation of any element *)

(** X5.  Under a string name, [transform_complex_element_to_tree_item]
    returns or raises what [transform_simple_element_to_tree_item] does,
    whatever the value and however many nested calls it is given. *)
Theorem transform_complex_is_simple_element
  (fuel : nat) (s : string) (value : pyvalue) :
  transform_complex_element_to_tree_item (S fuel) (VStr s) value
  = Some (transform_simple_element_to_tree_item (VStr s) value).
Proof.
  rewrite transform_complex_element_eq, transform_simple_element_eq.
  now destruct (is_scalar value).
Qed.

(** X6.  [transform_complex_element_to_tree_item] returns an item for
    no name and value, however many nested calls it is given: a value
    that is not a str, an int, a float or a bool raises TypeError in the
    first test whatever the name is; otherwise a name that is not a
    string raises AssertionError and a string name raises TypeError. *)
Theorem transform_complex_never_returns
  (fuel : nat) (name value : pyvalue) :
  transform_complex_element_to_tree_item (S fuel) name value =
    Some (Err (if is_scalar value
               then match name with
                    | VStr _ => TypeError
                    | _ => AssertionError
                    end
               else TypeError)).
Proof. apply transform_complex_element_eq. Qed.

(** ** The schema *)

(** X10.  [check_schema] accepts a schema exactly when it has a key
    ["type"] whose value is the string ["Entry"] or ["Dictionary"] and a
    key ["name"]; the value under ["name"] is never looked at. *)
Theorem check_schema_accepts_iff (schema : pydict) :
  check_schema schema = Ok tt
  <-> (getitem schema "type" = Ok (VStr "Entry")
       \/ getitem schema "type" = Ok (VStr "Dictionary"))
      /\ has_key "name" schema = true.
Proof.
  split.
  - intros H. destruct (check_schema_Ok _ H) as (_ & Hg & Hn). auto.
  - intros (Hg & Hn). rewrite check_schema_cases.
    destruct Hg as [-> | ->]; simpl; now rewrite Hn.
Qed.

Lemma check_schema_accepts_iff_witness :
  check_schema [(VStr "name", VNone); (VStr "type", VStr "Dictionary")]
  = Ok tt.
Proof.
  apply (proj2 (check_schema_accepts_iff
                  [(VStr "name", VNone); (VStr "type", VStr "Dictionary")])).
  split; [right | ]; reflexivity.
Defined.

(** X11.  A schema whose ["type"] holds a value that is not a string
    ends [check_schema] with TypeError, not with the ValueError it means
    to raise: the message is built by adding the value to a string. *)
Theorem check_schema_type_not_str (schema : pydict) (m : pyvalue) :
  getitem schema "type" = Ok m ->
  type_of m <> TStr ->
  check_schema schema = Err TypeError.
Proof.
  intros Hg Hm. rewrite check_schema_cases, Hg.
  destruct m; try reflexivity. now elim Hm.
Qed.

Lemma check_schema_type_not_str_witness :
  check_schema [(VStr "type", VInt 3); (VStr "name", VStr "n")]
  = Err TypeError.
Proof.
  apply (check_schema_type_not_str
           [(VStr "type", VInt 3); (VStr "name", VStr "n")] (VInt 3)).
  - reflexivity.
  - discriminate.
Defined.

(** X12.  [check_schema] raises ValueError or TypeError only: the lookup
    of ["type"] comes after the test that the key is there, so no KeyError
    leaves it; and ValueError is what a schema without ["type"], with
    another string under ["type"], or without ["name"] gets. *)
Theorem check_schema_errors (schema : pydict) (e : exn) :
  check_schema schema = Err e ->
  (e = ValueError \/ e = TypeError)
  /\ (e = TypeError <->
      exists m, getitem schema "type" = Ok m /\ type_of m <> TStr).
Proof.
  rewrite check_schema_cases.
  destruct (getitem schema "type") as [m | e'] eqn:Hg.
  - destruct m;
      try (intros H; inversion H; subst; split; [now right | ];
           split; [intros _; eexists; split; [reflexivity | discriminate]
                  | reflexivity]).
    intros H.
    assert (He : e = ValueError).
    { destruct (String.eqb s "Entry" || String.eqb s "Dictionary")%bool;
        [destruct (has_key "name" schema) | ]; congruence. }
    subst e. split; [now left | ].
    split; [discriminate | ].
    intros (m & Hm & Hty). inversion Hm; subst. now elim Hty.
  - intros H. inversion H; subst. split; [now left | ].
    split; [discriminate | ]. intros (m & Hm & _). discriminate Hm.
Qed.

Lemma check_schema_errors_witness :
  check_schema [(VStr "type", VStr "Entry")] = Err ValueError
  /\ (ValueError = ValueError \/ ValueError = TypeError).
Proof.
  split; [reflexivity | ].
  apply (check_schema_errors [(VStr "type", VStr "Entry")] ValueError).
  reflexivity.
Defined.

(** X13.  [model_builder] returns for no schema at all: whatever the
    dict, keys that are not strings included, it ends with ValueError or
    with TypeError. *)
Theorem model_builder_never_returns (schema : pydict) :
  model_builder schema = Err ValueError
  \/ model_builder schema = Err TypeError.
Proof.
  destruct (check_schema schema) as [[] | e] eqn:Hc.
  - destruct (model_builder_accepted _ Hc) as (model_name & ->).
    destruct (check_schema_Ok _ Hc) as (Ht & _).
    apply has_key_In in Ht.
    destruct (collect_bad_keys_cases (map fst schema) [])
      as [(-> & _) | (bad & -> & _ & _ & Hin)]; [now right | left].
    assert (Hbad : bad <> [])
      by (apply (Hin "type"); [discriminate | exact Ht]).
    now destruct bad.
  - unfold model_builder. rewrite Hc. cbn [bind].
    destruct (check_schema_errors_aux _ _ Hc); subst; auto.
Qed.



End Properties.
